(** * bayeslite: the metamodel interface (src/metamodel.py)

    A shallow embedding of [bayesdb_register_metamodel],
    [bayesdb_deregister_metamodel] and the class [IBayesDBMetamodel],
    with the properties of the registry and of the default prediction
    policy. *)

From Stdlib Require Import ZArith Floats.
From stdpp Require Import gmap strings list fin_maps.

Local Open Scope string_scope.

(** ** Python values, exceptions and outcomes *)

(** The values that travel through the query operations: SQL null (Python
    [None]), integers, floats and text. *)
Inductive value : Type :=
| VNone
| VInt (z : Z)
| VFloat (f : float)
| VStr (s : string).

(** The exceptions the module raises by itself, and [ProviderError] for
    whatever a provider's own code raises. *)
Inductive exn : Type :=
| ValueError (msg : string)
| AssertionError
| NotImplementedError
| KeyError (key : string)
| ProviderError (msg : string).

Inductive result (A : Type) : Type :=
| Return (a : A)
| Raise (e : exn).
Arguments Return {A} a.
Arguments Raise {A} e.

(** A computation over a state [S]: the outcome and the state it leaves. *)
Definition comp (S A : Type) : Type := S -> result A * S.

Definition ret {S A} (a : A) : comp S A := fun s => (Return a, s).
Definition raise {S A} (e : exn) : comp S A := fun s => (Raise e, s).
Definition bind {S A B} (c : comp S A) (k : A -> comp S B) : comp S B :=
  fun s => match c s with
           | (Return a, s') => k a s'
           | (Raise e, s') => (Raise e, s')
           end.

Notation "'let!' x ':=' c 'in' k" := (bind c (fun x => k))
  (at level 10, x name, c at level 100, k at level 200).
Notation "'let!' ' pat ':=' c 'in' k" :=
  (bind c (fun x => match x with pat => k end))
  (at level 10, pat pattern, c at level 100, k at level 200).

(** ** The contract: class IBayesDBMetamodel *)

(** A schema item is a string or a list of schema items. *)
#[local] Set Warnings "-register-all".
Inductive schema_item : Type :=
| Atom (s : string)
| Group (items : list schema_item).

Section Contract.

(** What a provider's methods read and write through [bdb]: the SQL
    database of the session together with the provider's own records. *)
Variable Store : Type.

(** The method table of an instance.  [predict] is not a field: the class
    gives it a body, below. *)
Record IBayesDBMetamodel : Type := {
  name : result string;
  register : comp Store unit;
  create_generator :
    string -> list schema_item ->
    (list (string * string) -> comp Store (Z * list (Z * string * string))) ->
    comp Store unit;
  drop_generator : Z -> comp Store unit;
  rename_column : Z -> string -> string -> comp Store unit;
  initialize_models : Z -> list Z -> list (string * value) -> comp Store unit;
  drop_models : Z -> option (list Z) -> comp Store unit;
  analyze_models :
    Z -> option (list Z) -> Z -> option Z -> option Z -> comp Store unit;
  column_dependence_probability : Z -> Z -> Z -> comp Store float;
  mutual_information : Z -> Z -> Z -> Z -> comp Store float;
  column_typicality : Z -> Z -> comp Store float;
  column_value_probability : Z -> Z -> value -> comp Store float;
  row_similarity : Z -> Z -> Z -> list Z -> comp Store float;
  row_typicality : Z -> Z -> comp Store float;
  row_column_predictive_probability : Z -> Z -> Z -> comp Store (option float);
  predict_confidence : Z -> Z -> Z -> option Z -> comp Store (value * float);
  simulate : Z -> list (Z * value) -> list Z -> Z -> comp Store (list (list value));
  insertmany : Z -> list (list value) -> comp Store unit
}.

(** [IBayesDBMetamodel.predict]: the one method with a body. *)
Definition predict (self : IBayesDBMetamodel)
    (generator_id colno rowid : Z) (threshold : float)
    (numsamples : option Z) : comp Store value :=
  let! '(value, confidence) :=
     predict_confidence self generator_id colno rowid numsamples in
  if (confidence <? threshold)%float then ret VNone else ret value.

(** An instance of the class itself, [IBayesDBMetamodel()]: every method
    of the table has the body [raise NotImplementedError]. *)
Definition abstract_metamodel : IBayesDBMetamodel := {|
  name := Raise NotImplementedError;
  register := raise NotImplementedError;
  create_generator := fun _ _ _ => raise NotImplementedError;
  drop_generator := fun _ => raise NotImplementedError;
  rename_column := fun _ _ _ => raise NotImplementedError;
  initialize_models := fun _ _ _ => raise NotImplementedError;
  drop_models := fun _ _ => raise NotImplementedError;
  analyze_models := fun _ _ _ _ _ => raise NotImplementedError;
  column_dependence_probability := fun _ _ _ => raise NotImplementedError;
  mutual_information := fun _ _ _ _ => raise NotImplementedError;
  column_typicality := fun _ _ => raise NotImplementedError;
  column_value_probability := fun _ _ _ => raise NotImplementedError;
  row_similarity := fun _ _ _ _ => raise NotImplementedError;
  row_typicality := fun _ _ => raise NotImplementedError;
  row_column_predictive_probability := fun _ _ _ => raise NotImplementedError;
  predict_confidence := fun _ _ _ _ => raise NotImplementedError;
  simulate := fun _ _ _ _ => raise NotImplementedError;
  insertmany := fun _ _ => raise NotImplementedError
|}.

(** A subclass that overrides [predict_confidence] and inherits the rest
    from [super]. *)
Definition override_predict_confidence (super : IBayesDBMetamodel)
    (pc : Z -> Z -> Z -> option Z -> comp Store (value * float))
  : IBayesDBMetamodel := {|
  name := name super;
  register := register super;
  create_generator := create_generator super;
  drop_generator := drop_generator super;
  rename_column := rename_column super;
  initialize_models := initialize_models super;
  drop_models := drop_models super;
  analyze_models := analyze_models super;
  column_dependence_probability := column_dependence_probability super;
  mutual_information := mutual_information super;
  column_typicality := column_typicality super;
  column_value_probability := column_value_probability super;
  row_similarity := row_similarity super;
  row_typicality := row_typicality super;
  row_column_predictive_probability := row_column_predictive_probability super;
  predict_confidence := pc;
  simulate := simulate super;
  insertmany := insertmany super
|}.

(** A subclass that overrides [name] and [register]. *)
Definition override_name_register (super : IBayesDBMetamodel)
    (nm : result string) (reg : comp Store unit) : IBayesDBMetamodel := {|
  name := nm;
  register := reg;
  create_generator := create_generator super;
  drop_generator := drop_generator super;
  rename_column := rename_column super;
  initialize_models := initialize_models super;
  drop_models := drop_models super;
  analyze_models := analyze_models super;
  column_dependence_probability := column_dependence_probability super;
  mutual_information := mutual_information super;
  column_typicality := column_typicality super;
  column_value_probability := column_value_probability super;
  row_similarity := row_similarity super;
  row_typicality := row_typicality super;
  row_column_predictive_probability := row_column_predictive_probability super;
  predict_confidence := predict_confidence super;
  simulate := simulate super;
  insertmany := insertmany super
|}.

(** ** The session and its registry *)

(** Python objects are references: two metamodels of the same class and
    name are still two objects, and [==] on instances of a class without
    [__eq__] compares the references. *)
Definition objref : Type := nat.

(** [bdb]: the dict [bdb.metamodels] and the store behind the session. *)
Record BayesDB : Type := {
  metamodels : gmap string objref;
  store : Store
}.

(** The object behind each reference. *)
Variable obj : objref -> IBayesDBMetamodel.

(** A method call on a metamodel: it works on the store of [bdb]; the
    dict [bdb.metamodels] is the bookkeeping of the host, which a provider
    does not write. *)
Definition in_store {A} (c : comp Store A) : comp BayesDB A :=
  fun bdb =>
    let '(r, st) := c (store bdb) in
    (r, {| metamodels := metamodels bdb; store := st |}).

(** [metamodel.name()]: no effect on the session. *)
Definition call_name (metamodel : objref) : comp BayesDB string :=
  fun bdb => (name (obj metamodel), bdb).

(** [name in bdb.metamodels] *)
Definition contains (name : string) : comp BayesDB bool :=
  fun bdb => (Return (bool_decide (is_Some (metamodels bdb !! name))), bdb).

(** [bdb.metamodels[name]] *)
Definition getitem (name : string) : comp BayesDB objref :=
  fun bdb =>
    match metamodels bdb !! name with
    | Some m => (Return m, bdb)
    | None => (Raise (KeyError name), bdb)
    end.

(** [bdb.metamodels[name] = metamodel] *)
Definition setitem (name : string) (metamodel : objref) : comp BayesDB unit :=
  fun bdb =>
    (Return tt,
     {| metamodels := <[name := metamodel]> (metamodels bdb);
        store := store bdb |}).

(** [del bdb.metamodels[name]] *)
Definition delitem (name : string) : comp BayesDB unit :=
  fun bdb =>
    match metamodels bdb !! name with
    | Some _ =>
        (Return tt,
         {| metamodels := delete name (metamodels bdb); store := store bdb |})
    | None => (Raise (KeyError name), bdb)
    end.

(** [assert b] *)
Definition assert (b : bool) : comp BayesDB unit :=
  if b then ret tt else raise AssertionError.

(** Modelled from the spec: [bdb.savepoint()], the context manager of the
    session class, which is defined outside this module.  The spec calls
    it a scoped all-or-nothing unit of work with guaranteed rollback on
    failure: when the body raises, the store is put back as it was on
    entry and the exception goes on; the dict [bdb.metamodels] lives in
    memory and is left as the body left it. *)
Definition savepoint {A} (body : comp BayesDB A) : comp BayesDB A :=
  fun bdb =>
    match body bdb with
    | (Return a, bdb') => (Return a, bdb')
    | (Raise e, bdb') =>
        (Raise e, {| metamodels := metamodels bdb'; store := store bdb |})
    end.

Definition bayesdb_register_metamodel (bdb : BayesDB) (metamodel : objref)
  : result unit * BayesDB :=
  (let! name := call_name metamodel in
   let! registered := contains name in
   if registered : bool then
     raise (ValueError ("Metamodel already registered: " ++ name))
   else
     savepoint
       (let! _ := in_store (register (obj metamodel)) in
        setitem name metamodel)) bdb.

Definition bayesdb_deregister_metamodel (bdb : BayesDB) (metamodel : objref)
  : result unit * BayesDB :=
  (let! name := call_name metamodel in
   let! registered := contains name in
   let! _ := assert registered in
   let! found := getitem name in
   let! _ := assert (bool_decide (found = metamodel)) in
   delitem name) bdb.

(** A session history: calls of the two functions, each on the state the
    previous call left, whether it returned or raised. *)
Inductive op : Type :=
| Register (metamodel : objref)
| Deregister (metamodel : objref).

Definition run_op (bdb : BayesDB) (o : op) : BayesDB :=
  match o with
  | Register m => snd (bayesdb_register_metamodel bdb m)
  | Deregister m => snd (bayesdb_deregister_metamodel bdb m)
  end.

Definition run_ops (ops : list op) (bdb : BayesDB) : BayesDB :=
  fold_left run_op ops bdb.

(** The registry keys every metamodel by its own name. *)
Definition keyed_by_name (reg : gmap string objref) : Prop :=
  map_Forall (fun n m => name (obj m) = Return n) reg.

End Contract.

Arguments predict {Store} self generator_id colno rowid threshold numsamples _.
Arguments abstract_metamodel {Store}.
Arguments override_predict_confidence {Store} super pc.
Arguments override_name_register {Store} super nm reg.
Arguments metamodels {Store} _.
Arguments store {Store} _.
Arguments Build_BayesDB {Store} _ _.
Arguments bayesdb_register_metamodel {Store} obj bdb metamodel.
Arguments bayesdb_deregister_metamodel {Store} obj bdb metamodel.
Arguments savepoint {Store A} body _.
Arguments in_store {Store A} c _.
Arguments setitem {Store} name metamodel _.
Arguments name {Store} _.
Arguments register {Store} _ _.
Arguments rename_column {Store} _ _ _ _ _.
Arguments predict_confidence {Store} _ _ _ _ _ _.

Arguments keyed_by_name {Store} obj reg.
Arguments run_op {Store} obj bdb o.
Arguments run_ops {Store} obj ops bdb.
Arguments drop_generator {Store} _ _ _.
Arguments create_generator {Store} _ _ _ _ _.
Arguments initialize_models {Store} _ _ _ _ _.
Arguments drop_models {Store} _ _ _ _.
Arguments analyze_models {Store} _ _ _ _ _ _ _.
Arguments column_dependence_probability {Store} _ _ _ _ _.
Arguments mutual_information {Store} _ _ _ _ _ _.
Arguments column_typicality {Store} _ _ _ _.
Arguments column_value_probability {Store} _ _ _ _ _.
Arguments row_similarity {Store} _ _ _ _ _ _.
Arguments row_typicality {Store} _ _ _ _.
Arguments row_column_predictive_probability {Store} _ _ _ _ _.
Arguments simulate {Store} _ _ _ _ _ _.
Arguments insertmany {Store} _ _ _ _.

(** The calls of a history that are registrations. *)
Definition is_register (o : op) : bool :=
  match o with
  | Register _ => true
  | Deregister _ => false
  end.

(** ** A provider's predictive probability *)

Module Provider.

(** The observed cells of the tables behind the generators, by generator
    id, rowid and column number; a cell that is absent or holds [VNone]
    is null. *)
Definition cells : Type := gmap (Z * Z * Z) value.

Definition observed (st : cells) (generator_id rowid colno : Z) : value :=
  default VNone (st !! (generator_id, rowid, colno)).

(** Modelled from the spec: [row_column_predictive_probability] of a
    conforming provider.  The class only declares the method (its body
    raises [NotImplementedError]) and the providers that implement it are
    not in this module.  The spec gives the result as a float or null,
    null exactly when the row's observed value for that column is itself
    null or missing; [density] stands for the provider's fitted model. *)
Definition row_column_predictive_probability
    (density : Z -> Z -> Z -> value -> float)
    (generator_id rowid colno : Z) : comp cells (option float) :=
  fun st =>
    match observed st generator_id rowid colno with
    | VNone => (Return None, st)
    | v => (Return (Some (density generator_id rowid colno v)), st)
    end.

End Provider.

(** ** A session to run the definitions on *)

Module Fixture.

(** The store: the names of the tables installed so far. *)
Definition tables : Type := list string.

Definition install (t : string) : comp tables unit :=
  fun st => (Return tt, t :: st).

(** A [register] that creates its table and then fails. *)
Definition install_then_fail (t : string) : comp tables unit :=
  let! _ := install t in raise (ProviderError "disk full").

(** Objects 0 and 1 are two providers of the same name, 2 is a provider
    whose [register] fails half way, 3 is a provider of another name, and
    every other reference is an instance of the class itself. *)
Definition obj (r : objref) : IBayesDBMetamodel tables :=
  match r with
  | 0 => override_predict_confidence
           (override_name_register abstract_metamodel
              (Return "crosscat") (install "bayesdb_crosscat"))
           (fun _ _ _ _ => ret (VInt 7, 0.75%float))
  | 1 => override_name_register abstract_metamodel
           (Return "crosscat") (install "bayesdb_crosscat_bis")
  | 2 => override_name_register abstract_metamodel
           (Return "broken") (install_then_fail "bayesdb_broken")
  | 3 => override_name_register abstract_metamodel
           (Return "iid_gaussian") (install "bayesdb_iid_gaussian")
  | _ => abstract_metamodel
  end.

Definition fresh : BayesDB tables := {| metamodels := ∅; store := [] |}.

(** The session after object 0 has been registered. *)
Definition with_crosscat : BayesDB tables :=
  run_ops obj [Register 0] fresh.

(** A history with conflicts, failures and a reuse of a name. *)
Definition history : list op :=
  [Register 0; Register 1; Register 2; Register 3; Deregister 1;
   Deregister 0; Register 4; Register 1].

(** Two observed cells of generator 1, one of them null. *)
Definition observations : Provider.cells :=
  {[ (1, 1, 0)%Z := VFloat 2.5%float; (1, 1, 1)%Z := VNone ]}.

Definition flat_density (generator_id rowid colno : Z) (v : value) : float :=
  0.25%float.

(** The session after objects 0 and 3 have been registered. *)
Definition with_two : BayesDB tables :=
  run_ops obj [Register 0; Register 3] fresh.


End Fixture.

(** ** Comparison of floats that are numbers *)

Lemma SFcompare_swap (x y : spec_float) :
  SFcompare y x = CompOpp <$> SFcompare x y.
Proof.
  destruct x as [sx|sx| |sx mx ex], y as [sy|sy| |sy my ey]; simpl;
    try reflexivity;
    try (destruct sx; reflexivity);
    try (destruct sy; reflexivity);
    try (destruct sx, sy; reflexivity).
  destruct sx, sy; simpl; try reflexivity;
    rewrite (Z.compare_antisym ey ex);
    destruct (ey ?= ex)%Z eqn:E; simpl; try reflexivity;
    rewrite (Pos.compare_cont_antisym mx my Eq); simpl;
    try reflexivity;
    now rewrite CompOpp_involutive.
Qed.

Lemma is_nan_false_compare (x y : float) :
  is_nan x = false -> is_nan y = false ->
  exists c, SFcompare (Prim2SF x) (Prim2SF y) = Some c.
Proof.
  unfold is_nan. rewrite !FloatAxioms.eqb_spec. unfold SFeqb.
  destruct (Prim2SF x) as [sx|sx| |sx mx ex], (Prim2SF y) as [sy|sy| |sy my ey];
    simpl; intros Hx Hy; try discriminate; eauto.
Qed.

Lemma float_ltb_negb_leb (x y : float) :
  is_nan x = false -> is_nan y = false ->
  (x <? y)%float = negb (y <=? x)%float.
Proof.
  intros Hx Hy. rewrite FloatAxioms.ltb_spec, FloatAxioms.leb_spec. unfold SFltb, SFleb.
  rewrite (SFcompare_swap (Prim2SF x) (Prim2SF y)).
  destruct (is_nan_false_compare x y Hx Hy) as [c ->].
  destruct c; reflexivity.
Qed.

(** ** The default prediction policy *)

Section Predict.

Context {Store : Type}.
Implicit Types (self : IBayesDBMetamodel Store) (bdb : Store).

(** [predict] makes one call of [predict_confidence], with its own
    arguments, whatever the threshold. *)
Lemma predict_calls_predict_confidence self g c r t n bdb :
  predict self g c r t n bdb =
  match predict_confidence self g c r n bdb with
  | (Return (v, conf), bdb') =>
      (Return (if (conf <? t)%float then VNone else v), bdb')
  | (Raise e, bdb') => (Raise e, bdb')
  end.
Proof.
  unfold predict, bind.
  destruct (predict_confidence self g c r n bdb) as [[[v conf]|e] bdb'];
    [ destruct (conf <? t)%float | ]; reflexivity.
Qed.

(** C1: for every generator, column, row, threshold and number of samples,
    [predict] passes them to [predict_confidence]; where that yields a
    value [v] and a confidence [conf], it returns [v] when [conf >= t]
    and [None] otherwise, so for a [v] that is not itself [None] it
    returns [v] exactly when [conf >= t].  Confidence and threshold are
    numbers (not NaN). *)
Theorem predict_threshold self g c r t n bdb v conf bdb' :
  predict_confidence self g c r n bdb = (Return (v, conf), bdb') ->
  is_nan conf = false -> is_nan t = false ->
  ((t <=? conf)%float = true -> predict self g c r t n bdb = (Return v, bdb')) /\
  ((t <=? conf)%float = false -> predict self g c r t n bdb = (Return VNone, bdb')) /\
  (v <> VNone ->
   (predict self g c r t n bdb = (Return v, bdb') <-> (t <=? conf)%float = true)).
Proof.
  intros Hpc Hconf Ht.
  rewrite predict_calls_predict_confidence, Hpc.
  rewrite (float_ltb_negb_leb conf t Hconf Ht).
  destruct (t <=? conf)%float; simpl.
  - split; [reflexivity|]. split; [discriminate|]. intros _. split; reflexivity.
  - split; [discriminate|]. split; [reflexivity|].
    intros Hv. split; [|discriminate]. intros H. congruence.
Qed.

End Predict.

(** [predict] on the first provider of the fixture, whose confidence is
    0.75, at the thresholds 0.5 and 0.875. *)
Lemma predict_threshold_witness :
  predict (Fixture.obj 0) 1 2 3 0.5%float None [] = (Return (VInt 7), []) /\
  predict (Fixture.obj 0) 1 2 3 0.875%float None [] = (Return VNone, []).
Proof.
  split.
  - apply (proj1 (predict_threshold (Fixture.obj 0) 1 2 3 0.5%float None []
                    (VInt 7) 0.75%float [] eq_refl eq_refl eq_refl)).
    reflexivity.
  - apply (proj1 (proj2 (predict_threshold (Fixture.obj 0) 1 2 3 0.875%float None []
                    (VInt 7) 0.75%float [] eq_refl eq_refl eq_refl))).
    reflexivity.
Defined.

(** A confidence that is NaN compares false with every threshold, so
    [predict] lets the value through; the threshold rule is stated for
    confidences and thresholds that are numbers. *)
Remark predict_nan_confidence :
  predict
    (override_predict_confidence abstract_metamodel
       (fun _ _ _ _ => ret (VInt 7, nan)))
    1 2 3 0.5%float None ([] : list string) = (Return (VInt 7), []) /\
  (0.5 <=? nan)%float = false.
Proof. split; reflexivity. Qed.

(** ** The class itself *)

Section Abstract.

Context {Store : Type}.
Implicit Types (bdb : Store).

Local Abbreviation abstract := (@abstract_metamodel Store).
Local Abbreviation unimplemented := (Raise NotImplementedError).

(** C7: [rename_column] of the class raises [NotImplementedError] for
    every generator id and every pair of names and leaves the store as it
    was, and so does a subclass that inherits it while it overrides other
    methods. *)
Theorem rename_column_unsupported (generator_id : Z) (oldname newname : string)
    bdb :
  rename_column abstract generator_id oldname newname bdb
    = (unimplemented, bdb) /\
  (forall nm reg,
     rename_column (override_name_register abstract nm reg)
       generator_id oldname newname bdb = (unimplemented, bdb)) /\
  (forall pc,
     rename_column (override_predict_confidence abstract pc)
       generator_id oldname newname bdb = (unimplemented, bdb)).
Proof. repeat split. Qed.

(** C10: on an instance of the class itself every method other than
    [predict] raises [NotImplementedError], for all arguments, and leaves
    the store as it was.  [predict] has a body: on the class itself it
    raises the [NotImplementedError] of the [predict_confidence] it calls,
    and in a subclass that overrides nothing but [predict_confidence] it
    returns what the threshold rule gives. *)
Theorem abstract_methods_raise bdb :
  name abstract = unimplemented /\
  register abstract bdb = (unimplemented, bdb) /\
  (forall table schema instantiate,
     create_generator abstract table schema instantiate bdb
       = (unimplemented, bdb)) /\
  (forall g, drop_generator abstract g bdb = (unimplemented, bdb)) /\
  (forall g oldname newname,
     rename_column abstract g oldname newname bdb = (unimplemented, bdb)) /\
  (forall g modelnos model_config,
     initialize_models abstract g modelnos model_config bdb
       = (unimplemented, bdb)) /\
  (forall g modelnos, drop_models abstract g modelnos bdb = (unimplemented, bdb)) /\
  (forall g modelnos iterations max_seconds iterations_per_checkpoint,
     analyze_models abstract g modelnos iterations max_seconds
       iterations_per_checkpoint bdb = (unimplemented, bdb)) /\
  (forall g colno0 colno1,
     column_dependence_probability abstract g colno0 colno1 bdb
       = (unimplemented, bdb)) /\
  (forall g colno0 colno1 numsamples,
     mutual_information abstract g colno0 colno1 numsamples bdb
       = (unimplemented, bdb)) /\
  (forall g colno, column_typicality abstract g colno bdb = (unimplemented, bdb)) /\
  (forall g colno v,
     column_value_probability abstract g colno v bdb = (unimplemented, bdb)) /\
  (forall g rowid target_rowid colnos,
     row_similarity abstract g rowid target_rowid colnos bdb
       = (unimplemented, bdb)) /\
  (forall g rowid, row_typicality abstract g rowid bdb = (unimplemented, bdb)) /\
  (forall g rowid colno,
     row_column_predictive_probability abstract g rowid colno bdb
       = (unimplemented, bdb)) /\
  (forall g colno rowid numsamples,
     predict_confidence abstract g colno rowid numsamples bdb
       = (unimplemented, bdb)) /\
  (forall g constraints colnos numpredictions,
     simulate abstract g constraints colnos numpredictions bdb
       = (unimplemented, bdb)) /\
  (forall g rows, insertmany abstract g rows bdb = (unimplemented, bdb)) /\
  (forall g colno rowid threshold numsamples,
     predict abstract g colno rowid threshold numsamples bdb
       = (unimplemented, bdb)) /\
  (forall pc g colno rowid threshold numsamples,
     predict (override_predict_confidence abstract pc)
       g colno rowid threshold numsamples bdb =
     match pc g colno rowid numsamples bdb with
     | (Return (v, conf), bdb') =>
         (Return (if (conf <? threshold)%float then VNone else v), bdb')
     | (Raise e, bdb') => (Raise e, bdb')
     end).
Proof.
  repeat (split; [reflexivity|]).
  intros pc g colno rowid threshold numsamples.
  apply predict_calls_predict_confidence.
Qed.

End Abstract.

(** ** A conforming provider *)

(** C6: the predictive probability of a conforming provider never raises,
    leaves the store as it was, and is null exactly when the observed
    value of the row for the column is null: a value that is not null
    gets a float, a null value gets null. *)
Theorem predictive_probability_null_iff
    (density : Z -> Z -> Z -> value -> float)
    (generator_id rowid colno : Z) (st : Provider.cells) :
  (exists p,
     Provider.row_column_predictive_probability density
       generator_id rowid colno st = (Return p, st)) /\
  (Provider.row_column_predictive_probability density
     generator_id rowid colno st = (Return None, st) <->
   Provider.observed st generator_id rowid colno = VNone).
Proof.
  unfold Provider.row_column_predictive_probability.
  destruct (Provider.observed st generator_id rowid colno) eqn:E;
    (split; [eexists; reflexivity|]); split; intros H;
    try reflexivity; try discriminate.
Qed.

(** On the fixture: a cell with a value, a cell that holds null and a
    cell that is missing. *)
Example predictive_probability_on_observations :
  Provider.row_column_predictive_probability Fixture.flat_density 1 1 0
    Fixture.observations = (Return (Some 0.25%float), Fixture.observations) /\
  Provider.row_column_predictive_probability Fixture.flat_density 1 1 1
    Fixture.observations = (Return None, Fixture.observations) /\
  Provider.row_column_predictive_probability Fixture.flat_density 1 9 9
    Fixture.observations = (Return None, Fixture.observations).
Proof. repeat split. Qed.

(** ** The registry *)

Section Registry.

Context {Store : Type}.
Variable obj : objref -> IBayesDBMetamodel Store.
Implicit Types (bdb : BayesDB Store) (m : objref) (n : string).

Local Abbreviation register_metamodel := (bayesdb_register_metamodel obj).
Local Abbreviation deregister_metamodel := (bayesdb_deregister_metamodel obj).

Lemma BayesDB_eta bdb :
  {| metamodels := metamodels bdb; store := store bdb |} = bdb.
Proof. destruct bdb; reflexivity. Qed.

(** The three ways [bayesdb_register_metamodel] ends, once [name()] has
    returned. *)
Lemma register_conflict bdb m n m1 :
  name (obj m) = Return n -> metamodels bdb !! n = Some m1 ->
  register_metamodel bdb m =
  (Raise (ValueError ("Metamodel already registered: " ++ n)), bdb).
Proof.
  intros Hn Hin. unfold bayesdb_register_metamodel, bind, call_name, contains.
  rewrite Hn, Hin. rewrite bool_decide_eq_true_2 by eauto. reflexivity.
Qed.

Lemma register_installs bdb m n st' :
  name (obj m) = Return n -> metamodels bdb !! n = None ->
  register (obj m) (store bdb) = (Return tt, st') ->
  register_metamodel bdb m =
  (Return tt, {| metamodels := <[n := m]> (metamodels bdb); store := st' |}).
Proof.
  intros Hn Hout Hreg.
  unfold bayesdb_register_metamodel, bind, call_name, contains.
  rewrite Hn, Hout.
  rewrite bool_decide_eq_false_2 by (intros [? ?]; discriminate).
  unfold savepoint, bind, in_store. rewrite Hreg. reflexivity.
Qed.

Lemma register_rolls_back bdb m n e st' :
  name (obj m) = Return n -> metamodels bdb !! n = None ->
  register (obj m) (store bdb) = (Raise e, st') ->
  register_metamodel bdb m = (Raise e, bdb).
Proof.
  intros Hn Hout Hreg.
  unfold bayesdb_register_metamodel, bind, call_name, contains.
  rewrite Hn, Hout.
  rewrite bool_decide_eq_false_2 by (intros [? ?]; discriminate).
  unfold savepoint, bind, in_store. rewrite Hreg. simpl.
  now rewrite BayesDB_eta.
Qed.

Lemma register_name_raises bdb m e :
  name (obj m) = Raise e -> register_metamodel bdb m = (Raise e, bdb).
Proof.
  intros Hn. unfold bayesdb_register_metamodel, bind, call_name.
  now rewrite Hn.
Qed.

(** The ways [bayesdb_deregister_metamodel] ends. *)
Lemma deregister_name_raises bdb m e :
  name (obj m) = Raise e -> deregister_metamodel bdb m = (Raise e, bdb).
Proof.
  intros Hn. unfold bayesdb_deregister_metamodel, bind, call_name.
  now rewrite Hn.
Qed.

Lemma deregister_absent bdb m n :
  name (obj m) = Return n -> metamodels bdb !! n = None ->
  deregister_metamodel bdb m = (Raise AssertionError, bdb).
Proof.
  intros Hn Hout.
  unfold bayesdb_deregister_metamodel, bind, call_name, contains.
  rewrite Hn, Hout.
  rewrite bool_decide_eq_false_2 by (intros [? ?]; discriminate).
  reflexivity.
Qed.

Lemma deregister_other bdb m n m' :
  name (obj m) = Return n -> metamodels bdb !! n = Some m' -> m' <> m ->
  deregister_metamodel bdb m = (Raise AssertionError, bdb).
Proof.
  intros Hn Hin Hne.
  unfold bayesdb_deregister_metamodel, bind, call_name, contains, getitem.
  rewrite Hn, Hin. rewrite bool_decide_eq_true_2 by eauto. simpl.
  rewrite Hin. rewrite bool_decide_eq_false_2 by exact Hne. reflexivity.
Qed.

Lemma deregister_removes bdb m n :
  name (obj m) = Return n -> metamodels bdb !! n = Some m ->
  deregister_metamodel bdb m =
  (Return tt, {| metamodels := delete n (metamodels bdb); store := store bdb |}).
Proof.
  intros Hn Hin.
  unfold bayesdb_deregister_metamodel, bind, call_name, contains, getitem,
    delitem.
  rewrite Hn, Hin. rewrite bool_decide_eq_true_2 by eauto. simpl.
  rewrite Hin. rewrite bool_decide_eq_true_2 by reflexivity. simpl.
  now rewrite Hin.
Qed.

(** What a call that returned says about the state before it. *)
Lemma register_returned bdb m bdb' :
  register_metamodel bdb m = (Return tt, bdb') ->
  exists n st',
    name (obj m) = Return n /\ metamodels bdb !! n = None /\
    register (obj m) (store bdb) = (Return tt, st') /\
    bdb' = {| metamodels := <[n := m]> (metamodels bdb); store := st' |}.
Proof.
  intros H.
  destruct (name (obj m)) as [n|e] eqn:Hn;
    [| rewrite (register_name_raises _ _ _ Hn) in H; discriminate].
  destruct (metamodels bdb !! n) as [m1|] eqn:Hl;
    [rewrite (register_conflict _ _ _ _ Hn Hl) in H; discriminate|].
  destruct (register (obj m) (store bdb)) as [[[]|e] st'] eqn:Hreg;
    [| rewrite (register_rolls_back _ _ _ _ _ Hn Hl Hreg) in H; discriminate].
  rewrite (register_installs _ _ _ _ Hn Hl Hreg) in H.
  exists n, st'. repeat split; congruence.
Qed.

Lemma deregister_returned bdb m bdb' :
  deregister_metamodel bdb m = (Return tt, bdb') ->
  exists n,
    name (obj m) = Return n /\ metamodels bdb !! n = Some m /\
    bdb' = {| metamodels := delete n (metamodels bdb); store := store bdb |}.
Proof.
  intros H.
  destruct (name (obj m)) as [n|e] eqn:Hn;
    [| rewrite (deregister_name_raises _ _ _ Hn) in H; discriminate].
  destruct (metamodels bdb !! n) as [m'|] eqn:Hl;
    [| rewrite (deregister_absent _ _ _ Hn Hl) in H; discriminate].
  destruct (decide (m' = m)) as [->|Hne];
    [| rewrite (deregister_other _ _ _ _ Hn Hl Hne) in H; discriminate].
  rewrite (deregister_removes _ _ _ Hn Hl) in H.
  exists n. repeat split; congruence.
Qed.

(** A call that raised left the registry as it was. *)
Lemma register_registry bdb m :
  metamodels (snd (register_metamodel bdb m)) = metamodels bdb \/
  exists n, name (obj m) = Return n /\ metamodels bdb !! n = None /\
    metamodels (snd (register_metamodel bdb m)) = <[n := m]> (metamodels bdb).
Proof.
  destruct (name (obj m)) as [n|e] eqn:Hn;
    [| rewrite (register_name_raises _ _ _ Hn); now left].
  destruct (metamodels bdb !! n) as [m1|] eqn:Hl;
    [rewrite (register_conflict _ _ _ _ Hn Hl); now left|].
  destruct (register (obj m) (store bdb)) as [[[]|e] st'] eqn:Hreg.
  - rewrite (register_installs _ _ _ _ Hn Hl Hreg). right. now exists n.
  - rewrite (register_rolls_back _ _ _ _ _ Hn Hl Hreg). now left.
Qed.

Lemma deregister_registry bdb m :
  metamodels (snd (deregister_metamodel bdb m)) = metamodels bdb \/
  exists n, metamodels (snd (deregister_metamodel bdb m)) =
            delete n (metamodels bdb).
Proof.
  destruct (name (obj m)) as [n|e] eqn:Hn;
    [| rewrite (deregister_name_raises _ _ _ Hn); now left].
  destruct (metamodels bdb !! n) as [m'|] eqn:Hl;
    [| rewrite (deregister_absent _ _ _ Hn Hl); now left].
  destruct (decide (m' = m)) as [->|Hne].
  - rewrite (deregister_removes _ _ _ Hn Hl). right. now exists n.
  - rewrite (deregister_other _ _ _ _ Hn Hl Hne). now left.
Qed.

(** C2: when a metamodel [m1] is registered under the name that [m1] and
    [m2] share, registering [m2] raises [ValueError], and the session is
    left as it was: the name still maps to [m1]. *)
Theorem register_same_name_fails bdb m1 m2 n :
  name (obj m1) = Return n -> name (obj m2) = Return n ->
  metamodels bdb !! n = Some m1 ->
  register_metamodel bdb m2 =
    (Raise (ValueError ("Metamodel already registered: " ++ n)), bdb) /\
  metamodels (snd (register_metamodel bdb m2)) !! n = Some m1.
Proof.
  intros _ Hn2 Hin.
  rewrite (register_conflict _ _ _ _ Hn2 Hin). split; [reflexivity|exact Hin].
Qed.

(** C3: for a name that is free, [bayesdb_register_metamodel] runs
    [metamodel.register] on the store inside the savepoint.  When that
    returns, the call returns with the store [register] produced and with
    the binding added; when that raises, the call raises the same
    exception, the name is still absent from the registry and the store is
    the one before the call. *)
Theorem register_all_or_nothing bdb m n :
  name (obj m) = Return n -> metamodels bdb !! n = None ->
  (forall st',
     register (obj m) (store bdb) = (Return tt, st') ->
     register_metamodel bdb m =
       (Return tt,
        {| metamodels := <[n := m]> (metamodels bdb); store := st' |})) /\
  (forall e st',
     register (obj m) (store bdb) = (Raise e, st') ->
     fst (register_metamodel bdb m) = Raise e /\
     metamodels (snd (register_metamodel bdb m)) !! n = None /\
     metamodels (snd (register_metamodel bdb m)) = metamodels bdb /\
     store (snd (register_metamodel bdb m)) = store bdb).
Proof.
  intros Hn Hout. split.
  - intros st' Hreg. exact (register_installs _ _ _ _ Hn Hout Hreg).
  - intros e st' Hreg. rewrite (register_rolls_back _ _ _ _ _ Hn Hout Hreg).
    simpl. auto.
Qed.

(** C4: [bayesdb_deregister_metamodel] raises [AssertionError] and leaves
    the session alone when the name of the metamodel is not in the
    registry, and when the name is bound to another object, whatever that
    object's name; when the name is bound to this very object the call
    returns and the binding is gone.  So it returns exactly when the entry
    under the name is this object. *)
Theorem deregister_exact_instance bdb m n :
  name (obj m) = Return n ->
  (metamodels bdb !! n = None ->
   deregister_metamodel bdb m = (Raise AssertionError, bdb)) /\
  (forall m', metamodels bdb !! n = Some m' -> m' <> m ->
   deregister_metamodel bdb m = (Raise AssertionError, bdb)) /\
  (metamodels bdb !! n = Some m ->
   deregister_metamodel bdb m =
     (Return tt,
      {| metamodels := delete n (metamodels bdb); store := store bdb |}) /\
   metamodels (snd (deregister_metamodel bdb m)) !! n = None) /\
  (fst (deregister_metamodel bdb m) = Return tt <->
   metamodels bdb !! n = Some m).
Proof.
  intros Hn. split; [|split; [|split; [|split]]].
  - exact (deregister_absent _ _ _ Hn).
  - intros m'. exact (deregister_other _ _ _ _ Hn).
  - intros Hin. rewrite (deregister_removes _ _ _ Hn Hin).
    split; [reflexivity|]. simpl. apply lookup_delete_eq.
  - intros Hret.
    destruct (deregister_metamodel bdb m) as [r bdb'] eqn:E. simpl in Hret.
    subst r. destruct (deregister_returned _ _ _ E) as (n' & Hn' & Hin & _).
    congruence.
  - intros Hin. now rewrite (deregister_removes _ _ _ Hn Hin).
Qed.

(** C5: take a metamodel [m] whose name is free and whose [register]
    returns.  Registering [m] and then deregistering it both return, and
    the registry is again the one before the registration.  A metamodel
    [m'] of the same name can then be registered: the call returns, with
    [m'] under the name, when the [register] of [m'] returns. *)
Theorem register_deregister_restores bdb m m' n st1 st2 :
  name (obj m) = Return n -> metamodels bdb !! n = None ->
  register (obj m) (store bdb) = (Return tt, st1) ->
  name (obj m') = Return n ->
  register (obj m') st1 = (Return tt, st2) ->
  exists bdb1 bdb2 bdb3,
    register_metamodel bdb m = (Return tt, bdb1) /\
    deregister_metamodel bdb1 m = (Return tt, bdb2) /\
    metamodels bdb2 = metamodels bdb /\
    register_metamodel bdb2 m' = (Return tt, bdb3) /\
    metamodels bdb3 = <[n := m']> (metamodels bdb).
Proof.
  intros Hn Hout Hreg Hn' Hreg'.
  pose (bdb1 := {| metamodels := <[n := m]> (metamodels bdb); store := st1 |}).
  pose (bdb2 := {| metamodels := delete n (metamodels bdb1); store := st1 |}).
  assert (Hback : metamodels bdb2 = metamodels bdb).
  { simpl. rewrite delete_insert_eq. now apply delete_id. }
  exists bdb1, bdb2,
    {| metamodels := <[n := m']> (metamodels bdb2); store := st2 |}.
  split; [exact (register_installs _ _ _ _ Hn Hout Hreg)|].
  split.
  { apply (deregister_removes bdb1 m n Hn). simpl. apply lookup_insert_eq. }
  split; [exact Hback|].
  split.
  { apply (register_installs bdb2 m' n st2 Hn'); [|exact Hreg'].
    rewrite Hback. exact Hout. }
  simpl. rewrite delete_insert_eq. now rewrite delete_id.
Qed.

Lemma keyed_by_name_run_op bdb o :
  keyed_by_name obj (metamodels bdb) ->
  keyed_by_name obj (metamodels (run_op obj bdb o)).
Proof.
  intros Hinv. destruct o as [m|m]; simpl.
  - destruct (register_registry bdb m) as [->|(n & Hn & _ & ->)];
      [exact Hinv|].
    apply map_Forall_insert_2; assumption.
  - destruct (deregister_registry bdb m) as [->|(n & ->)]; [exact Hinv|].
    now apply map_Forall_delete.
Qed.

Lemma keyed_by_name_run_ops ops bdb :
  keyed_by_name obj (metamodels bdb) ->
  keyed_by_name obj (metamodels (run_ops obj ops bdb)).
Proof.
  unfold run_ops. revert bdb.
  induction ops as [|o ops IH]; intros bdb Hinv; simpl; [exact Hinv|].
  apply IH. now apply keyed_by_name_run_op.
Qed.

(** C8: from a session with an empty registry, after any sequence of
    calls of [bayesdb_register_metamodel] and
    [bayesdb_deregister_metamodel], returned or raised, every entry of the
    registry maps a name [n] to an object whose [name()] is [n]. *)
Theorem registry_keyed_by_name (ops : list op) (st : Store) n m :
  metamodels (run_ops obj ops {| metamodels := ∅; store := st |}) !! n
    = Some m ->
  name (obj m) = Return n.
Proof.
  apply (keyed_by_name_run_ops ops {| metamodels := ∅; store := st |}).
  apply map_Forall_empty.
Qed.

(** C9: a call of [bayesdb_register_metamodel] that returns has added the
    binding of the metamodel's name, which was free, and every other name
    looks up as before; a call of [bayesdb_deregister_metamodel] that
    returns has removed the binding of the metamodel's name, every other
    name looks up as before, and the store is untouched. *)
Theorem registry_frame bdb m bdb' :
  (register_metamodel bdb m = (Return tt, bdb') ->
   exists n, name (obj m) = Return n /\
     metamodels bdb !! n = None /\
     metamodels bdb' !! n = Some m /\
     forall n', n' <> n -> metamodels bdb' !! n' = metamodels bdb !! n') /\
  (deregister_metamodel bdb m = (Return tt, bdb') ->
   exists n, name (obj m) = Return n /\
     metamodels bdb !! n = Some m /\
     metamodels bdb' !! n = None /\
     (forall n', n' <> n -> metamodels bdb' !! n' = metamodels bdb !! n') /\
     store bdb' = store bdb).
Proof.
  split; intros H.
  - destruct (register_returned _ _ _ H) as (n & st' & Hn & Hout & _ & ->).
    exists n. simpl. repeat split; try assumption.
    + apply lookup_insert_eq.
    + intros n' Hne. now apply lookup_insert_ne.
  - destruct (deregister_returned _ _ _ H) as (n & Hn & Hin & ->).
    exists n. simpl. repeat split; try assumption.
    + apply lookup_delete_eq.
    + intros n' Hne. now apply lookup_delete_ne.
Qed.

End Registry.

(** ** The fixture session through the registry theorems *)

Lemma register_same_name_fails_witness :
  bayesdb_register_metamodel Fixture.obj Fixture.with_crosscat 1 =
    (Raise (ValueError "Metamodel already registered: crosscat"),
     Fixture.with_crosscat) /\
  metamodels
    (snd (bayesdb_register_metamodel Fixture.obj Fixture.with_crosscat 1))
    !! "crosscat" = Some 0.
Proof.
  exact (register_same_name_fails Fixture.obj Fixture.with_crosscat 0 1
           "crosscat" eq_refl eq_refl eq_refl).
Defined.

Lemma register_all_or_nothing_witness :
  bayesdb_register_metamodel Fixture.obj Fixture.fresh 0 =
    (Return tt,
     {| metamodels := <["crosscat" := 0]> ∅; store := ["bayesdb_crosscat"] |}) /\
  (fst (bayesdb_register_metamodel Fixture.obj Fixture.fresh 2) =
     Raise (ProviderError "disk full") /\
   metamodels (snd (bayesdb_register_metamodel Fixture.obj Fixture.fresh 2))
     !! "broken" = None /\
   metamodels (snd (bayesdb_register_metamodel Fixture.obj Fixture.fresh 2))
     = ∅ /\
   store (snd (bayesdb_register_metamodel Fixture.obj Fixture.fresh 2)) = []).
Proof.
  split.
  - exact (proj1 (register_all_or_nothing Fixture.obj Fixture.fresh 0
                    "crosscat" eq_refl eq_refl)
             ["bayesdb_crosscat"] eq_refl).
  - exact (proj2 (register_all_or_nothing Fixture.obj Fixture.fresh 2
                    "broken" eq_refl eq_refl)
             (ProviderError "disk full") ["bayesdb_broken"] eq_refl).
Defined.

Lemma deregister_exact_instance_witness :
  bayesdb_deregister_metamodel Fixture.obj Fixture.fresh 0 =
    (Raise AssertionError, Fixture.fresh) /\
  bayesdb_deregister_metamodel Fixture.obj Fixture.with_crosscat 1 =
    (Raise AssertionError, Fixture.with_crosscat) /\
  bayesdb_deregister_metamodel Fixture.obj Fixture.with_crosscat 0 =
    (Return tt,
     {| metamodels := delete "crosscat" (metamodels Fixture.with_crosscat);
        store := ["bayesdb_crosscat"] |}).
Proof.
  split; [|split].
  - exact (proj1 (deregister_exact_instance Fixture.obj Fixture.fresh 0
                    "crosscat" eq_refl) eq_refl).
  - refine (proj1 (proj2 (deregister_exact_instance Fixture.obj
                            Fixture.with_crosscat 1 "crosscat" eq_refl))
              0 eq_refl _).
    discriminate.
  - exact (proj1 (proj1 (proj2 (proj2 (deregister_exact_instance Fixture.obj
                    Fixture.with_crosscat 0 "crosscat" eq_refl))) eq_refl)).
Defined.

Lemma register_deregister_restores_witness :
  exists bdb1 bdb2 bdb3,
    bayesdb_register_metamodel Fixture.obj Fixture.fresh 0 = (Return tt, bdb1) /\
    bayesdb_deregister_metamodel Fixture.obj bdb1 0 = (Return tt, bdb2) /\
    metamodels bdb2 = metamodels Fixture.fresh /\
    bayesdb_register_metamodel Fixture.obj bdb2 1 = (Return tt, bdb3) /\
    metamodels bdb3 = <["crosscat" := 1]> (metamodels Fixture.fresh).
Proof.
  exact (register_deregister_restores Fixture.obj Fixture.fresh 0 1 "crosscat"
           ["bayesdb_crosscat"] ["bayesdb_crosscat_bis"; "bayesdb_crosscat"]
           eq_refl eq_refl eq_refl eq_refl eq_refl).
Defined.

Lemma registry_keyed_by_name_witness :
  metamodels (run_ops Fixture.obj Fixture.history Fixture.fresh)
    !! "crosscat" = Some 1 /\
  name (Fixture.obj 1) = Return "crosscat".
Proof.
  split; [reflexivity|].
  exact (registry_keyed_by_name Fixture.obj Fixture.history [] "crosscat" 1
           eq_refl).
Defined.

Lemma registry_frame_witness :
  (exists n, name (Fixture.obj 3) = Return n /\
     metamodels Fixture.with_crosscat !! n = None /\
     metamodels (run_ops Fixture.obj [Register 3] Fixture.with_crosscat) !! n
       = Some 3 /\
     forall n', n' <> n ->
       metamodels (run_ops Fixture.obj [Register 3] Fixture.with_crosscat) !! n'
       = metamodels Fixture.with_crosscat !! n') /\
  (exists n, name (Fixture.obj 0) = Return n /\
     metamodels Fixture.with_crosscat !! n = Some 0 /\
     metamodels (run_ops Fixture.obj [Deregister 0] Fixture.with_crosscat) !! n
       = None /\
     (forall n', n' <> n ->
       metamodels (run_ops Fixture.obj [Deregister 0] Fixture.with_crosscat) !! n'
       = metamodels Fixture.with_crosscat !! n') /\
     store (run_ops Fixture.obj [Deregister 0] Fixture.with_crosscat)
       = store Fixture.with_crosscat).
Proof.
  split.
  - exact (proj1 (registry_frame Fixture.obj Fixture.with_crosscat 3
                    (run_ops Fixture.obj [Register 3] Fixture.with_crosscat))
             eq_refl).
  - exact (proj2 (registry_frame Fixture.obj Fixture.with_crosscat 0
                    (run_ops Fixture.obj [Deregister 0] Fixture.with_crosscat))
             eq_refl).
Defined.

(** ** More on the registry: failures, repeated calls, order *)

Section RegistryCalls.

Context {Store : Type}.
Variable obj : objref -> IBayesDBMetamodel Store.
Implicit Types (bdb : BayesDB Store) (m : objref) (n : string).

Local Abbreviation register_metamodel := (bayesdb_register_metamodel obj).
Local Abbreviation deregister_metamodel := (bayesdb_deregister_metamodel obj).

(** X1: a call of [bayesdb_register_metamodel] that raises leaves the
    session as it was, registry and store, and its exception is the one
    [name()] raised, or the [ValueError] for a name that is taken, or the
    one [register()] raised on the store for a name that is free. *)
Theorem register_raise_cases bdb m e bdb' :
  register_metamodel bdb m = (Raise e, bdb') ->
  bdb' = bdb /\
  (name (obj m) = Raise e \/
   (exists n, name (obj m) = Return n /\ is_Some (metamodels bdb !! n) /\
      e = ValueError ("Metamodel already registered: " ++ n)) \/
   (exists n st', name (obj m) = Return n /\ metamodels bdb !! n = None /\
      register (obj m) (store bdb) = (Raise e, st'))).
Proof.
  intros H.
  destruct (name (obj m)) as [n|e0] eqn:Hn.
  2:{ rewrite (register_name_raises obj _ _ _ Hn) in H.
      injection H as -> ->. auto. }
  destruct (metamodels bdb !! n) as [m1|] eqn:Hl.
  { rewrite (register_conflict obj _ _ _ _ Hn Hl) in H.
    injection H as <- <-. split; [reflexivity|].
    right; left. exists n. rewrite Hl. eauto. }
  destruct (register (obj m) (store bdb)) as [[[]|e0] st'] eqn:Hreg.
  { rewrite (register_installs obj _ _ _ _ Hn Hl Hreg) in H. discriminate. }
  rewrite (register_rolls_back obj _ _ _ _ _ Hn Hl Hreg) in H.
  injection H as -> ->. split; [reflexivity|].
  right; right. exists n, st'. auto.
Qed.

(** X2: a call of [bayesdb_deregister_metamodel] that raises leaves the
    session as it was, and its exception is the one [name()] raised or
    [AssertionError]: the lookup and the [del] after the asserts never
    raise [KeyError] by themselves. *)
Theorem deregister_raise_cases bdb m e bdb' :
  deregister_metamodel bdb m = (Raise e, bdb') ->
  bdb' = bdb /\
  (name (obj m) = Raise e \/
   (exists n, name (obj m) = Return n /\ metamodels bdb !! n <> Some m /\
      e = AssertionError)).
Proof.
  intros H.
  destruct (name (obj m)) as [n|e0] eqn:Hn.
  2:{ rewrite (deregister_name_raises obj _ _ _ Hn) in H.
      injection H as -> ->. auto. }
  destruct (metamodels bdb !! n) as [m'|] eqn:Hl.
  2:{ rewrite (deregister_absent obj _ _ _ Hn Hl) in H.
      injection H as <- <-. split; [reflexivity|].
      right. exists n. rewrite Hl. auto. }
  destruct (decide (m' = m)) as [->|Hne].
  { rewrite (deregister_removes obj _ _ _ Hn Hl) in H. discriminate. }
  rewrite (deregister_other obj _ _ _ _ Hn Hl Hne) in H.
  injection H as <- <-. split; [reflexivity|].
  right. exists n. rewrite Hl. split; [reflexivity|]. split; congruence.
Qed.

(** X3: after a call of [bayesdb_register_metamodel] that returned,
    registering the same metamodel again raises the [ValueError] and
    leaves the session as the first call left it. *)
Theorem register_twice_fails bdb m bdb1 :
  register_metamodel bdb m = (Return tt, bdb1) ->
  exists n, name (obj m) = Return n /\
    register_metamodel bdb1 m =
      (Raise (ValueError ("Metamodel already registered: " ++ n)), bdb1).
Proof.
  intros H.
  destruct (register_returned obj _ _ _ H) as (n & st' & Hn & _ & _ & ->).
  exists n. split; [exact Hn|].
  apply (register_conflict obj _ m n m Hn). simpl. apply lookup_insert_eq.
Qed.

(** X4: after a call of [bayesdb_deregister_metamodel] that returned,
    deregistering the same metamodel again raises [AssertionError] and
    leaves the session as the first call left it. *)
Theorem deregister_twice_fails bdb m bdb1 :
  bayesdb_deregister_metamodel obj bdb m = (Return tt, bdb1) ->
  bayesdb_deregister_metamodel obj bdb1 m = (Raise AssertionError, bdb1).
Proof.
  intros H.
  destruct (deregister_returned obj _ _ _ H) as (n & Hn & _ & ->).
  apply (deregister_absent obj _ m n Hn). simpl. apply lookup_delete_eq.
Qed.

(** X5: in a session reached from an empty registry by any calls of the
    two functions, no metamodel is bound under two names. *)
Theorem registry_one_name_per_instance (ops : list op) (st : Store) n1 n2 m :
  metamodels (run_ops obj ops {| metamodels := ∅; store := st |}) !! n1
    = Some m ->
  metamodels (run_ops obj ops {| metamodels := ∅; store := st |}) !! n2
    = Some m ->
  n1 = n2.
Proof.
  intros H1 H2.
  assert (Hinv : keyed_by_name obj
            (metamodels (run_ops obj ops {| metamodels := ∅; store := st |}))).
  { apply keyed_by_name_run_ops. apply map_Forall_empty. }
  pose proof (Hinv n1 m H1) as E1. pose proof (Hinv n2 m H2) as E2.
  congruence.
Qed.


(** X7: two metamodels that are registered can be deregistered in either
    order: all four calls return and both orders end in the same
    session. *)
Theorem deregister_commute bdb m1 m2 n1 n2 :
  name (obj m1) = Return n1 -> name (obj m2) = Return n2 ->
  metamodels bdb !! n1 = Some m1 -> metamodels bdb !! n2 = Some m2 ->
  m1 <> m2 ->
  exists b1 b2 b,
    deregister_metamodel bdb m1 = (Return tt, b1) /\
    deregister_metamodel b1 m2 = (Return tt, b) /\
    deregister_metamodel bdb m2 = (Return tt, b2) /\
    deregister_metamodel b2 m1 = (Return tt, b).
Proof.
  intros Hn1 Hn2 H1 H2 Hne.
  assert (Hnn : n1 <> n2) by congruence.
  exists {| metamodels := delete n1 (metamodels bdb); store := store bdb |},
         {| metamodels := delete n2 (metamodels bdb); store := store bdb |},
         {| metamodels := delete n2 (delete n1 (metamodels bdb));
            store := store bdb |}.
  split; [exact (deregister_removes obj _ _ _ Hn1 H1)|].
  split.
  { rewrite (deregister_removes obj _ m2 n2 Hn2); [reflexivity|].
    simpl. rewrite lookup_delete_ne by exact Hnn. exact H2. }
  split; [exact (deregister_removes obj _ _ _ Hn2 H2)|].
  rewrite (deregister_removes obj _ m1 n1 Hn1).
  - simpl. now rewrite (delete_delete (metamodels bdb) n1 n2).
  - simpl. rewrite lookup_delete_ne by congruence. exact H1.
Qed.

(** X8: when two metamodels can be registered one after the other in both
    orders, the two orders end in the same registry. *)
Theorem register_commute_registry bdb m1 m2 b1 b12 b2 b21 :
  bayesdb_register_metamodel obj bdb m1 = (Return tt, b1) ->
  bayesdb_register_metamodel obj b1 m2 = (Return tt, b12) ->
  bayesdb_register_metamodel obj bdb m2 = (Return tt, b2) ->
  bayesdb_register_metamodel obj b2 m1 = (Return tt, b21) ->
  metamodels b12 = metamodels b21.
Proof.
  intros H1 H12 H2 H21.
  destruct (register_returned obj _ _ _ H1) as (n1 & s1 & Hn1 & _ & _ & ->).
  destruct (register_returned obj _ _ _ H12) as (n2 & s12 & Hn2 & F2 & _ & ->).
  destruct (register_returned obj _ _ _ H2) as (n2' & s2 & Hn2' & _ & _ & ->).
  destruct (register_returned obj _ _ _ H21) as (n1' & s21 & Hn1' & _ & _ & ->).
  simpl in *.
  assert (n2' = n2) by congruence. assert (n1' = n1) by congruence. subst.
  apply insert_insert_ne. intros ->. rewrite lookup_insert_eq in F2. discriminate.
Qed.

(** X9: a call of [bayesdb_register_metamodel] that returned has added one
    name to the names of the registry, and a call of
    [bayesdb_deregister_metamodel] that returned has taken one away. *)
Theorem registry_size_step bdb m bdb' :
  (register_metamodel bdb m = (Return tt, bdb') ->
   size (metamodels bdb') = S (size (metamodels bdb)) /\
   exists n, name (obj m) = Return n /\ (n ∉ dom (metamodels bdb)) /\
     dom (metamodels bdb') = {[n]} ∪ dom (metamodels bdb)) /\
  (deregister_metamodel bdb m = (Return tt, bdb') ->
   S (size (metamodels bdb')) = size (metamodels bdb) /\
   exists n, name (obj m) = Return n /\ (n ∈ dom (metamodels bdb)) /\
     dom (metamodels bdb') = dom (metamodels bdb) ∖ {[n]}).
Proof.
  split; intros H.
  - destruct (register_returned obj _ _ _ H) as (n & st' & Hn & Hout & _ & ->).
    simpl. split; [now apply map_size_insert_None|].
    exists n. split; [exact Hn|]. split.
    + now apply not_elem_of_dom.
    + apply dom_insert_L.
  - destruct (deregister_returned obj _ _ _ H) as (n & Hn & Hin & ->).
    simpl. split.
    + rewrite map_size_delete_Some by eauto.
      assert (size (metamodels bdb) <> 0); [|lia].
      intros Hz. apply map_size_empty_inv in Hz. rewrite Hz in Hin.
      rewrite lookup_empty in Hin. discriminate.
    + exists n. split; [exact Hn|]. split.
      * apply elem_of_dom. eauto.
      * apply dom_delete_L.
Qed.

Lemma register_keeps_bindings bdb m n m' :
  metamodels bdb !! n = Some m' ->
  metamodels (snd (register_metamodel bdb m)) !! n = Some m'.
Proof.
  intros Hin.
  destruct (register_registry obj bdb m) as [->|(n0 & _ & Hout & ->)];
    [exact Hin|].
  rewrite lookup_insert_ne; [exact Hin|]. intros ->. congruence.
Qed.

(** X12: registrations never disturb what is registered: after any
    history made of calls of [bayesdb_register_metamodel] only, returned
    or raised, every name that was bound is still bound to the same
    metamodel. *)
Theorem register_only_keeps_bindings (ops : list op) bdb n m :
  forallb is_register ops = true ->
  metamodels bdb !! n = Some m ->
  metamodels (run_ops obj ops bdb) !! n = Some m.
Proof.
  unfold run_ops. revert bdb.
  induction ops as [|o ops IH]; intros bdb Hops Hin; simpl; [exact Hin|].
  simpl in Hops. apply andb_prop in Hops as [Ho Hops].
  apply IH; [exact Hops|].
  destruct o as [m0|m0]; [|discriminate]. simpl.
  now apply register_keeps_bindings.
Qed.

End RegistryCalls.

(** ** More on the prediction policy: NaN and the order of thresholds *)

Lemma SFcompare_refl (x : spec_float) :
  x <> S754_nan -> SFcompare x x = Some Eq.
Proof.
  destruct x as [s|s| |s m e]; simpl; intros H; try congruence.
  - now destruct s.
  - destruct s; rewrite Z.compare_refl, Pos.compare_cont_refl; reflexivity.
Qed.

Lemma is_nan_true_Prim2SF (x : float) :
  is_nan x = true -> Prim2SF x = S754_nan.
Proof.
  unfold is_nan. rewrite FloatAxioms.eqb_spec. unfold SFeqb. intros H.
  destruct (Prim2SF x) as [s|s| |s m e] eqn:E; [| |reflexivity|];
    rewrite SFcompare_refl in H by discriminate; discriminate.
Qed.

Lemma float_ltb_nan (x y : float) :
  is_nan x = true \/ is_nan y = true -> (x <? y)%float = false.
Proof.
  rewrite FloatAxioms.ltb_spec. unfold SFltb.
  intros [H|H]; rewrite (is_nan_true_Prim2SF _ H).
  - reflexivity.
  - now destruct (Prim2SF x).
Qed.

Lemma SFltb_SFleb_trans (x y z : spec_float) :
  SFltb x y = true -> SFleb y z = true -> SFltb x z = true.
Proof.
  unfold SFltb, SFleb.
  destruct x as [sx|sx| |sx mx ex], y as [sy|sy| |sy my ey],
    z as [sz|sz| |sz mz ez]; simpl;
    try discriminate; try reflexivity;
    try (destruct sx; simpl; try discriminate; try reflexivity);
    try (destruct sy; simpl; try discriminate; try reflexivity);
    try (destruct sz; simpl; try discriminate; try reflexivity);
    change (Pos.compare_cont Eq mx my) with (mx ?= my)%positive;
    change (Pos.compare_cont Eq my mz) with (my ?= mz)%positive;
    change (Pos.compare_cont Eq mx mz) with (mx ?= mz)%positive;
    destruct (Z.compare_spec ex ey), (Z.compare_spec ey ez),
      (Z.compare_spec ex ez); simpl; try discriminate; try reflexivity;
      try lia;
    destruct (Pos.compare_spec mx my), (Pos.compare_spec my mz),
      (Pos.compare_spec mx mz); simpl; try discriminate; try reflexivity;
      try lia.
Qed.

Lemma float_ltb_leb_trans (x y z : float) :
  (x <? y)%float = true -> (y <=? z)%float = true -> (x <? z)%float = true.
Proof.
  rewrite !FloatAxioms.ltb_spec, FloatAxioms.leb_spec.
  apply SFltb_SFleb_trans.
Qed.

Section PredictOrder.

Context {Store : Type}.
Implicit Types (self : IBayesDBMetamodel Store) (bdb : Store).

(** X10: when the confidence or the threshold is NaN the comparison
    [confidence < threshold] is false, so [predict] returns the value of
    [predict_confidence] whatever the other number is. *)
Theorem predict_nan_lets_through self g c r t n bdb v conf bdb' :
  predict_confidence self g c r n bdb = (Return (v, conf), bdb') ->
  is_nan conf = true \/ is_nan t = true ->
  predict self g c r t n bdb = (Return v, bdb').
Proof.
  intros Hpc Hnan.
  rewrite predict_calls_predict_confidence, Hpc.
  now rewrite (float_ltb_nan conf t Hnan).
Qed.

(** X11: raising the threshold never turns a [None] into a prediction and
    lowering it never loses one: for [t1 <= t2], a call that returns
    [None] at [t1] returns [None] at [t2], and a call that returns a value
    other than [None] at [t2] returns the same value at [t1], with the
    same store. *)
Theorem predict_threshold_monotone self g c r n bdb (t1 t2 : float) :
  (t1 <=? t2)%float = true ->
  (forall bdb',
     predict self g c r t1 n bdb = (Return VNone, bdb') ->
     predict self g c r t2 n bdb = (Return VNone, bdb')) /\
  (forall v bdb',
     predict self g c r t2 n bdb = (Return v, bdb') -> v <> VNone ->
     predict self g c r t1 n bdb = (Return v, bdb')).
Proof.
  intros Hle. rewrite !predict_calls_predict_confidence.
  destruct (predict_confidence self g c r n bdb) as [[[v0 conf]|e] s];
    [|split; intros; discriminate].
  destruct (conf <? t1)%float eqn:E1.
  - rewrite (float_ltb_leb_trans conf t1 t2 E1 Hle).
    split; [auto|]. intros v bdb' H Hv. congruence.
  - split.
    + intros bdb' H. destruct (conf <? t2)%float; [congruence|exact H].
    + intros v bdb' H Hv. destruct (conf <? t2)%float; [congruence|exact H].
Qed.

End PredictOrder.

Lemma predict_nan_lets_through_witness :
  predict (Fixture.obj 0) 1 2 3 nan None [] = (Return (VInt 7), []).
Proof.
  exact (predict_nan_lets_through (Fixture.obj 0) 1 2 3 nan None []
           (VInt 7) 0.75%float [] eq_refl (or_intror eq_refl)).
Defined.

Lemma predict_threshold_monotone_witness :
  predict (Fixture.obj 0) 1 2 3 1%float None [] = (Return VNone, []) /\
  predict (Fixture.obj 0) 1 2 3 0.25%float None [] = (Return (VInt 7), []).
Proof.
  split.
  - exact (proj1 (predict_threshold_monotone (Fixture.obj 0) 1 2 3 None []
                    0.875%float 1%float eq_refl) [] eq_refl).
  - refine (proj2 (predict_threshold_monotone (Fixture.obj 0) 1 2 3 None []
                    0.25%float 0.5%float eq_refl) (VInt 7) [] eq_refl _).
    discriminate.
Defined.

(** ** The fixture session through the theorems on calls *)

Lemma register_raise_cases_witness :
  Fixture.fresh = Fixture.fresh /\
  (name (Fixture.obj 2) = Raise (ProviderError "disk full") \/
   (exists n, name (Fixture.obj 2) = Return n /\
      is_Some (metamodels Fixture.fresh !! n) /\
      ProviderError "disk full"
        = ValueError ("Metamodel already registered: " ++ n)) \/
   (exists n st', name (Fixture.obj 2) = Return n /\
      metamodels Fixture.fresh !! n = None /\
      register (Fixture.obj 2) (store Fixture.fresh)
        = (Raise (ProviderError "disk full"), st'))).
Proof.
  exact (register_raise_cases Fixture.obj Fixture.fresh 2
           (ProviderError "disk full") Fixture.fresh eq_refl).
Defined.

Lemma deregister_raise_cases_witness :
  Fixture.with_crosscat = Fixture.with_crosscat /\
  (name (Fixture.obj 1) = Raise AssertionError \/
   (exists n, name (Fixture.obj 1) = Return n /\
      metamodels Fixture.with_crosscat !! n <> Some 1 /\
      AssertionError = AssertionError)).
Proof.
  exact (deregister_raise_cases Fixture.obj Fixture.with_crosscat 1
           AssertionError Fixture.with_crosscat eq_refl).
Defined.

Lemma register_twice_fails_witness :
  exists n, name (Fixture.obj 0) = Return n /\
    bayesdb_register_metamodel Fixture.obj Fixture.with_crosscat 0 =
      (Raise (ValueError ("Metamodel already registered: " ++ n)),
       Fixture.with_crosscat).
Proof.
  exact (register_twice_fails Fixture.obj Fixture.fresh 0
           Fixture.with_crosscat eq_refl).
Defined.

Lemma deregister_twice_fails_witness :
  bayesdb_deregister_metamodel Fixture.obj
    (run_ops Fixture.obj [Deregister 0] Fixture.with_crosscat) 0 =
  (Raise AssertionError,
   run_ops Fixture.obj [Deregister 0] Fixture.with_crosscat).
Proof.
  exact (deregister_twice_fails Fixture.obj Fixture.with_crosscat 0
           (run_ops Fixture.obj [Deregister 0] Fixture.with_crosscat)
           eq_refl).
Defined.

Lemma registry_one_name_per_instance_witness :
  metamodels Fixture.with_two !! "iid_gaussian" = Some 3 /\
  "iid_gaussian" = "iid_gaussian".
Proof.
  split; [reflexivity|].
  exact (registry_one_name_per_instance Fixture.obj
           [Register 0; Register 3] [] "iid_gaussian" "iid_gaussian" 3
           eq_refl eq_refl).
Defined.


Lemma deregister_commute_witness :
  exists b1 b2 b,
    bayesdb_deregister_metamodel Fixture.obj Fixture.with_two 0
      = (Return tt, b1) /\
    bayesdb_deregister_metamodel Fixture.obj b1 3 = (Return tt, b) /\
    bayesdb_deregister_metamodel Fixture.obj Fixture.with_two 3
      = (Return tt, b2) /\
    bayesdb_deregister_metamodel Fixture.obj b2 0 = (Return tt, b).
Proof.
  refine (deregister_commute Fixture.obj Fixture.with_two 0 3
            "crosscat" "iid_gaussian" eq_refl eq_refl eq_refl eq_refl _).
  discriminate.
Defined.

Lemma register_commute_registry_witness :
  metamodels (run_ops Fixture.obj [Register 0; Register 3] Fixture.fresh) =
  metamodels (run_ops Fixture.obj [Register 3; Register 0] Fixture.fresh).
Proof.
  exact (register_commute_registry Fixture.obj Fixture.fresh 0 3
           (run_ops Fixture.obj [Register 0] Fixture.fresh)
           (run_ops Fixture.obj [Register 0; Register 3] Fixture.fresh)
           (run_ops Fixture.obj [Register 3] Fixture.fresh)
           (run_ops Fixture.obj [Register 3; Register 0] Fixture.fresh)
           eq_refl eq_refl eq_refl eq_refl).
Defined.

Lemma registry_size_step_witness :
  size (metamodels Fixture.with_two) = S (size (metamodels Fixture.with_crosscat)) /\
  S (size (metamodels
             (run_ops Fixture.obj [Deregister 3] Fixture.with_two)))
    = size (metamodels Fixture.with_two).
Proof.
  split.
  - exact (proj1 (proj1 (registry_size_step Fixture.obj
                           Fixture.with_crosscat 3 Fixture.with_two)
                    eq_refl)).
  - exact (proj1 (proj2 (registry_size_step Fixture.obj Fixture.with_two 3
                           (run_ops Fixture.obj [Deregister 3]
                              Fixture.with_two))
                    eq_refl)).
Defined.

Lemma register_only_keeps_bindings_witness :
  metamodels
    (run_ops Fixture.obj [Register 1; Register 2; Register 3; Register 0]
       Fixture.with_crosscat) !! "crosscat" = Some 0.
Proof.
  exact (register_only_keeps_bindings Fixture.obj
           [Register 1; Register 2; Register 3; Register 0]
           Fixture.with_crosscat "crosscat" 0 eq_refl eq_refl).
Defined.
